(** * BaseAlert: the shared contract of the agent's alert checks

    A shallow embedding of
    [ambari-agent/src/main/python/ambari_agent/alerts/base_alert.py]
    (Python 2) and the properties of its execution and lookup protocol.

    Python objects are values of [pyval]; a [str] is a byte string, so it
    is a [string] of 8-bit characters; a [dict] with string keys is a
    [gmap string pyval].  A call either returns or raises, see [outcome].
    The executor object [self] is the record [BaseAlert], threaded
    explicitly through every method that reads or mutates it. *)

From Stdlib Require Import ZArith Ascii String List Lia Bool.
From stdpp Require Import base option gmap strings list pretty.

#[local] Set Warnings "-register-all".

(** ** Python values *)

Inductive pyval : Type :=
| PyNone
| PyInt (z : Z)
| PyStr (s : string)
| PyList (l : list pyval)
| PyTuple (l : list pyval)
| PyDict (d : gmap string pyval).

(** ** Exceptions *)

(** The classes that matter to [collect]: [except Exception] catches every
    class below but the last two, which derive from [BaseException] only. *)
Inductive exn_class : Type :=
| Exception | KeyError | TypeError | AttributeError | IndexError
| ValueError | NotImplementedError
| KeyboardInterrupt | SystemExit.

Definition is_Exception (c : exn_class) : bool :=
  match c with
  | KeyboardInterrupt | SystemExit => false
  | _ => true
  end.

(** An exception object: its class and the text [str(e)] gives for it. *)
Record exn : Type := mkExn { exn_class_of : exn_class; exn_str : string }.

(** The result of a call. [Beyond] marks a call that leaves the fragment of
    the interpreter modelled here (see [render_field]); nothing is claimed
    about such a call. *)
Inductive outcome (A : Type) : Type :=
| Returns (a : A)
| Raises (e : exn)
| Beyond.
Arguments Returns {A} a.
Arguments Raises {A} e.
Arguments Beyond {A}.

(** Sequencing: the first call that does not return ends the computation. *)
#[global] Instance outcome_bind : MBind outcome := fun A B k c =>
  match c with
  | Returns a => k a
  | Raises e => Raises e
  | Beyond => Beyond
  end.

(** ** The interpreter operations the module relies on *)

(** What the interpreter itself can raise while it runs the module's code. *)
Inductive fault : Type :=
| NoItemAccess (v : pyval)            (* v[k] where v is None or an int *)
| IndexNotInteger (v : pyval)         (* v['k'] where v is a str, list or tuple *)
| IndexOutOfRange (v : pyval)         (* v[i] past the end of a sequence *)
| NoSuchKey (k : pyval)               (* d[k] where k is not in the dict *)
| NoSuchAttribute (v : pyval) (a : string)
| StarNotSequence (v : pyval)         (* f( *v ) where v cannot be iterated *)
| FormatIndexOutOfRange               (* '{1}'.format(x) *)
| FormatSingleBrace (c : ascii)       (* a lone brace in a template *)
| FormatUnmatchedBrace                (* '{0'.format(x) *)
| UnsetAttribute (a : string).        (* self.a read before any assignment to it *)

Definition fault_class (f : fault) : exn_class :=
  match f with
  | NoItemAccess _ | IndexNotInteger _ | StarNotSequence _ => TypeError
  | IndexOutOfRange _ | FormatIndexOutOfRange => IndexError
  | NoSuchKey _ => KeyError
  | NoSuchAttribute _ _ | UnsetAttribute _ => AttributeError
  | FormatSingleBrace _ | FormatUnmatchedBrace => ValueError
  end.

Definition is_upper (c : ascii) : bool :=
  (65 <=? nat_of_ascii c)%nat && (nat_of_ascii c <=? 90)%nat.

Definition lower_char (c : ascii) : ascii :=
  if is_upper c then ascii_of_nat (nat_of_ascii c + 32) else c.

(** [str.lower()] of a byte string: the letters A-Z only. *)
Fixpoint lower (s : string) : string :=
  match s with
  | EmptyString => EmptyString
  | String c s' => String (lower_char c) (lower s')
  end.

Definition is_digit (c : ascii) : bool :=
  (48 <=? nat_of_ascii c)%nat && (nat_of_ascii c <=? 57)%nat.

Fixpoint all_digits (s : string) : bool :=
  match s with
  | EmptyString => true
  | String c s' => is_digit c && all_digits s'
  end.

Fixpoint digits_value (acc : nat) (s : string) : nat :=
  match s with
  | EmptyString => acc
  | String c s' => digits_value (10 * acc + (nat_of_ascii c - 48)) s'
  end.

(** The characters of a [str], as iterating over it yields them. *)
Fixpoint chars (s : string) : list pyval :=
  match s with
  | EmptyString => []
  | String c s' => PyStr (String c EmptyString) :: chars s'
  end.

Section Interpreter.

(** The text [str(e)] of an error the interpreter raises. The wording
    differs between interpreter versions and the module does not depend
    on it, so it is a parameter of the development. *)
Variable wording : fault -> string.

Definition fail {A : Type} (f : fault) : outcome A :=
  Raises (mkExn (fault_class f) (wording f)).

(** [v[i]] for an integer literal [i] (the module uses 0 and 1). *)
Definition getitem_int (v : pyval) (i : nat) : outcome pyval :=
  match v with
  | PyTuple l | PyList l =>
      match l !! i with
      | Some x => Returns x
      | None => fail (IndexOutOfRange v)
      end
  | PyStr s =>
      match String.get i s with
      | Some c => Returns (PyStr (String c EmptyString))
      | None => fail (IndexOutOfRange v)
      end
  | PyDict _ => fail (NoSuchKey (PyInt (Z.of_nat i)))
  | PyNone | PyInt _ => fail (NoItemAccess v)
  end.

(** [v['k']] for a string key. *)
Definition getitem_str (v : pyval) (k : string) : outcome pyval :=
  match v with
  | PyDict d =>
      match d !! k with
      | Some x => Returns x
      | None => fail (NoSuchKey (PyStr k))
      end
  | PyStr _ | PyList _ | PyTuple _ => fail (IndexNotInteger v)
  | PyNone | PyInt _ => fail (NoItemAccess v)
  end.

(** [v.lower()]: only a [str] has the method. *)
Definition call_lower (v : pyval) : outcome string :=
  match v with
  | PyStr s => Returns (lower s)
  | _ => fail (NoSuchAttribute v "lower")
  end.

(** The positional arguments of a call [f( *v )]. The order in which a
    dict yields its keys is the interpreter's. *)
Definition star_args (v : pyval) : outcome (list pyval) :=
  match v with
  | PyList l | PyTuple l => Returns l
  | PyStr s => Returns (chars s)
  | PyDict _ => Beyond
  | PyNone | PyInt _ => fail (StarNotSequence v)
  end.

(** An argument as a replacement field with no format spec shows it. *)
Definition shown (v : pyval) : outcome string :=
  match v with
  | PyStr s => Returns s
  | PyInt z => Returns (pretty z)
  | PyNone => Returns "None"
  | PyList _ | PyTuple _ | PyDict _ => Beyond
  end.

(** One replacement field [{f}]: modelled when [f] is a plain argument
    index. Automatic numbering, names, attribute and item access,
    conversions and format specs are outside the fragment. *)
Definition render_field (args : list pyval) (f : string) : outcome string :=
  if all_digits f && (1 <=? String.length f)%nat && (String.length f <=? 9)%nat then
    match args !! digits_value 0 f with
    | Some v => shown v
    | None => fail FormatIndexOutOfRange
    end
  else Beyond.

(** [tmpl.format( *args )], scanned left to right. [field] is [None]
    while literal text is read and [Some f] inside a replacement field
    whose text so far is [f]. *)
Fixpoint format_from (args : list pyval) (field : option string) (s : string)
  : outcome string :=
  match field, s with
  | None, EmptyString => Returns EmptyString
  | None, String c s' =>
      if Ascii.eqb c "{" then
        match s' with
        | EmptyString => fail (FormatSingleBrace c)
        | String c' s'' =>
            if Ascii.eqb c' "{" then
              rest ← format_from args None s''; Returns (String "{" rest)
            else format_from args (Some EmptyString) s'
        end
      else if Ascii.eqb c "}" then
        match s' with
        | EmptyString => fail (FormatSingleBrace c)
        | String c' s'' =>
            if Ascii.eqb c' "}" then
              rest ← format_from args None s''; Returns (String "}" rest)
            else fail (FormatSingleBrace c)
        end
      else rest ← format_from args None s'; Returns (String c rest)
  | Some f, EmptyString => fail FormatUnmatchedBrace
  | Some f, String c s' =>
      if Ascii.eqb c "}" then
        piece ← render_field args f;
        rest ← format_from args None s';
        Returns (piece +:+ rest)
      else if Ascii.eqb c "{" then Beyond
      else format_from args (Some (f +:+ String c EmptyString)) s'
  end.

Definition str_format (tmpl : string) (args : list pyval) : outcome string :=
  format_from args None tmpl.

(** [base.format]: only a [str] has the method; the result is the
    template the bound method will fill. *)
Definition attr_format (base : pyval) : outcome string :=
  match base with
  | PyStr tmpl => Returns tmpl
  | _ => fail (NoSuchAttribute base "format")
  end.

End Interpreter.

(** ** The pattern [{{([\S]+)}}] of [_find_lookup_property] *)

(** The characters [\s] matches in a byte string: space, \t, \n, \v, \f, \r. *)
Definition is_space (c : ascii) : bool :=
  let n := nat_of_ascii c in ((9 <=? n)%nat && (n <=? 13)%nat) || (n =? 32)%nat.

(** [strip p s]: the rest of [s] after its prefix [p], if [s] starts with [p]. *)
Fixpoint strip (p s : string) : option string :=
  match p, s with
  | EmptyString, _ => Some s
  | String a p', String b s' => if Ascii.eqb a b then strip p' s' else None
  | String _ _, EmptyString => None
  end.

(** [([\S]+)}}] at the start of [s], as the backtracking matcher finds it:
    the group takes one non-space character, then as many more as it can,
    and gives characters back until the closing braces follow. The result
    is the group and the text after the closing braces. *)
Fixpoint match_body (s : string) : option (string * string) :=
  match s with
  | EmptyString => None
  | String c s' =>
      if is_space c then None
      else match match_body s' with
           | Some (g, rest) => Some (String c g, rest)
           | None =>
               match strip "}}" s' with
               | Some rest => Some (String c EmptyString, rest)
               | None => None
               end
           end
  end.

(** The whole pattern at the start of [s]. *)
Definition match_at (s : string) : option (string * string) :=
  match strip "{{" s with
  | Some body => match_body body
  | None => None
  end.

(** [re.findall]: the groups of the successive non-overlapping matches,
    searched from left to right. A match consumes at least five
    characters, so [fuel] equal to the length of the text is enough. *)
Fixpoint findall_fuel (fuel : nat) (s : string) : list string :=
  match fuel with
  | O => []
  | S fuel' =>
      match s with
      | EmptyString => []
      | String _ s' =>
          match match_at s with
          | Some (g, rest) => g :: findall_fuel fuel' rest
          | None => findall_fuel fuel' s'
          end
      end
  end.

Definition findall (s : string) : list string :=
  findall_fuel (String.length s) s.

(** ** The executor *)

(** The result sink: the calls [put(cluster, data)] it has received, oldest
    first. *)
Definition sink : Type := list (pyval * gmap string pyval).

(** The attributes of a [BaseAlert] object. [collector] and
    [config_value_dict] do not exist until [set_helpers] assigns them. *)
Record BaseAlert : Type := mkBaseAlert {
  alert_meta : gmap string pyval;
  alert_source_meta : gmap string pyval;
  cluster : pyval;
  hostname : pyval;
  _lookup_keys : list string;
  collector : option sink;
  config_value_dict : option (gmap string pyval)
}.

Definition RESULT_OK : string := "OK".
Definition RESULT_WARNING : string := "WARNING".
Definition RESULT_CRITICAL : string := "CRITICAL".
Definition RESULT_UNKNOWN : string := "UNKNOWN".

Definition __init__ (alert_meta alert_source_meta : gmap string pyval) : BaseAlert :=
  {| alert_meta := alert_meta;
     alert_source_meta := alert_source_meta;
     cluster := PyStr "";
     hostname := PyStr "";
     _lookup_keys := [];
     collector := None;
     config_value_dict := None |}.

(** [v < n] for an integer literal [n], with Python 2's ordering of mixed
    types: [None] is below every object and numbers are below every other
    type. *)
Definition lt_int (v : pyval) (n : Z) : bool :=
  match v with
  | PyInt i => (i <? n)%Z
  | PyNone => true
  | PyStr _ | PyList _ | PyTuple _ | PyDict _ => false
  end.

Definition interval (self : BaseAlert) : pyval :=
  match alert_meta self !! "interval" with
  | None => PyInt 1
  | Some interval => if lt_int interval 1 then PyInt 1 else interval
  end.

Definition set_helpers (collector : sink) (value_dict : gmap string pyval)
    (self : BaseAlert) : BaseAlert :=
  {| alert_meta := alert_meta self;
     alert_source_meta := alert_source_meta self;
     cluster := cluster self;
     hostname := hostname self;
     _lookup_keys := _lookup_keys self;
     collector := Some collector;
     config_value_dict := Some value_dict |}.

Definition set_cluster (cluster host : pyval) (self : BaseAlert) : BaseAlert :=
  {| alert_meta := alert_meta self;
     alert_source_meta := alert_source_meta self;
     cluster := cluster;
     hostname := host;
     _lookup_keys := _lookup_keys self;
     collector := collector self;
     config_value_dict := config_value_dict self |}.

Definition _find_value (self : BaseAlert) (meta_key : string) : pyval :=
  match alert_meta self !! meta_key with
  | Some v => v
  | None => PyNone
  end.

Definition get_lookup_keys (self : BaseAlert) : list string := _lookup_keys self.

(** [self._lookup_keys.append(k)] *)
Definition append_lookup_key (k : string) (self : BaseAlert) : BaseAlert :=
  {| alert_meta := alert_meta self;
     alert_source_meta := alert_source_meta self;
     cluster := cluster self;
     hostname := hostname self;
     _lookup_keys := (_lookup_keys self ++ [k])%list;
     collector := collector self;
     config_value_dict := config_value_dict self |}.

(** The call to [logger.debug] only writes to the log and is left out. *)
Definition _find_lookup_property (key : string) (self : BaseAlert)
    : string * BaseAlert :=
  match findall key with
  | k0 :: _ => (k0, append_lookup_key k0 self)
  | [] => (key, self)
  end.

(** [self.collector.put(cluster, data)] on the sink the executor holds. *)
Definition put (cluster_id : pyval) (data : gmap string pyval) (c : sink)
    (self : BaseAlert) : BaseAlert :=
  {| alert_meta := alert_meta self;
     alert_source_meta := alert_source_meta self;
     cluster := cluster self;
     hostname := hostname self;
     _lookup_keys := _lookup_keys self;
     collector := Some (c ++ [(cluster_id, data)])%list;
     config_value_dict := config_value_dict self |}.

(** The check-specific method [_collect] of a subclass: it reads the
    executor and returns an object or raises. *)
Definition hook : Type := BaseAlert -> outcome pyval.

(** [BaseAlert._collect] itself: [raise NotImplementedError], whose [str]
    is empty since the exception carries no argument. *)
Definition _collect : hook :=
  fun _ => Raises (mkExn NotImplementedError "").

Section Methods.

Variable wording : fault -> string.

Definition _lookup_property_value (key : string) (self : BaseAlert)
    : outcome pyval :=
  if negb (bool_decide (key ∈ _lookup_keys self)) then Returns (PyStr key)
  else
    match config_value_dict self with
    | None => fail wording (UnsetAttribute "config_value_dict")
    | Some d =>
        match d !! key with
        | Some v => Returns v
        | None => Returns PyNone
        end
    end.

(** The body of the [try] in [collect]: the hook's result and the
    reporting text of its state. In the subscription chain the table
    ['reporting'] is fetched before [res[0].lower()] is evaluated. *)
Definition collect_try (h : hook) (self : BaseAlert) : outcome (pyval * pyval) :=
  res ← h self;
  reporting ← getitem_str wording (PyDict (alert_source_meta self)) "reporting";
  res0 ← getitem_int wording res 0;
  state ← call_lower wording res0;
  entry ← getitem_str wording reporting state;
  res_base_text ← getitem_str wording entry "text";
  Returns (res, res_base_text).

(** [try ... except Exception as e]: the pair [(res, res_base_text)] the
    code goes on with. The traceback printed by the handler is left out. *)
Definition collect_guarded (h : hook) (self : BaseAlert) : outcome (pyval * pyval) :=
  match collect_try h self with
  | Returns r => Returns r
  | Raises e =>
      if is_Exception (exn_class_of e) then
        Returns (PyTuple [PyStr RESULT_UNKNOWN; PyList [PyStr (exn_str e)]],
                 PyStr "Unknown {0}")
      else Raises e
  | Beyond => Beyond
  end.

(** The dict [data] built after the [try] statement. *)
Definition collect_data (res res_base_text : pyval) (self : BaseAlert)
    : outcome (gmap string pyval) :=
  let name := _find_value self "name" in
  let label := _find_value self "label" in
  state ← getitem_int wording res 0;
  tmpl ← attr_format wording res_base_text;
  res1 ← getitem_int wording res 1;
  args ← star_args wording res1;
  text ← str_format wording tmpl args;
  Returns (<["component" := _find_value self "componentName"]>
           (<["service" := _find_value self "service"]>
           (<["cluster" := cluster self]>
           (<["text" := PyStr text]>
           (<["state" := state]>
           (<["label" := label]>
           (<["name" := name]> ∅))))))).

(** [collect]: what the call does (returns [None] or raises) and the
    executor afterwards. *)
Definition collect (h : hook) (self : BaseAlert) : outcome unit * BaseAlert :=
  match
    '(res, res_base_text) ← collect_guarded h self;
    data ← collect_data res res_base_text self;
    match collector self with
    | Some c => Returns (put (cluster self) data c self)
    | None => fail wording (UnsetAttribute "collector")
    end
  with
  | Returns self' => (Returns tt, self')
  | Raises e => (Raises e, self)
  | Beyond => (Beyond, self)
  end.

End Methods.

(** ** The wording of CPython 2.7

    One instance of the [wording] parameter, used where a statement is about
    a concrete run: the texts CPython 2.7 gives on a 64-bit platform. *)

Definition type_name (v : pyval) : string :=
  match v with
  | PyNone => "NoneType"
  | PyInt z => if ((- 2 ^ 63 <=? z) && (z <? 2 ^ 63))%Z then "int" else "long"
  | PyStr _ => "str"
  | PyList _ => "list"
  | PyTuple _ => "tuple"
  | PyDict _ => "dict"
  end.

Definition hex_digit (n : nat) : ascii :=
  if (n <? 10)%nat then ascii_of_nat (48 + n) else ascii_of_nat (87 + n).

Fixpoint contains (c : ascii) (s : string) : bool :=
  match s with
  | EmptyString => false
  | String a s' => Ascii.eqb a c || contains c s'
  end.

Fixpoint repr_chars (quote : ascii) (s : string) : string :=
  match s with
  | EmptyString => String quote EmptyString
  | String c s' =>
      let n := nat_of_ascii c in
      (if Ascii.eqb c quote || (n =? 92)%nat then String "\" (String c EmptyString)
       else if (n =? 9)%nat then "\t"
       else if (n =? 10)%nat then "\n"
       else if (n =? 13)%nat then "\r"
       else if (n <? 32)%nat || (127 <=? n)%nat then
         String "\" (String "x" (String (hex_digit (n / 16))
                                   (String (hex_digit (n mod 16)) EmptyString)))
       else String c EmptyString) +:+ repr_chars quote s'
  end.

Definition double_quote : ascii := ascii_of_nat 34.

(** [repr] of a byte string. *)
Definition repr_str (s : string) : string :=
  let quote : ascii :=
    if contains "'" s && negb (contains double_quote s) then double_quote else "'"%char in
  String quote (repr_chars quote s).

Definition cpython27 (f : fault) : string :=
  match f with
  | NoItemAccess v =>
      "'" +:+ type_name v +:+ "' object has no attribute '__getitem__'"
  | IndexNotInteger v =>
      match v with
      | PyStr _ => "string"
      | _ => type_name v
      end +:+ " indices must be integers, not str"
  | IndexOutOfRange v =>
      match v with
      | PyStr _ => "string"
      | _ => type_name v
      end +:+ " index out of range"
  | NoSuchKey (PyStr k) => repr_str k
  | NoSuchKey (PyInt i) => pretty i
  | NoSuchKey _ => ""
  | NoSuchAttribute v a =>
      "'" +:+ type_name v +:+ "' object has no attribute '" +:+ a +:+ "'"
  | StarNotSequence v =>
      "format() argument after * must be a sequence, not " +:+ type_name v
  | FormatIndexOutOfRange => "tuple index out of range"
  | FormatSingleBrace c =>
      "Single '" +:+ String c EmptyString +:+ "' encountered in format string"
  | FormatUnmatchedBrace => "unmatched '{' in format"
  | UnsetAttribute a => "'BaseAlert' object has no attribute '" +:+ a +:+ "'"
  end.

(** ** Parameterization tokens, as the specification words them *)

Fixpoint no_space (s : string) : bool :=
  match s with
  | EmptyString => true
  | String c s' => negb (is_space c) && no_space s'
  end.

(** [key] holds a token [{{g}}] between [pre] and [post]: the inner path
    [g] is not empty and has no white space in it. *)
Definition token (key pre g post : string) : Prop :=
  key = pre +:+ "{{" +:+ g +:+ "}}" +:+ post /\ g <> EmptyString /\ no_space g = true.

Definition has_token (key : string) : Prop :=
  exists pre g post, token key pre g post.

(** The token [{{g}}] after [pre] is the first of [key]: no token starts
    further left, and none that starts at the same place is longer. *)
Definition first_token (key pre g : string) : Prop :=
  forall pre' g' post',
    token key pre' g' post' ->
    (String.length pre <= String.length pre')%nat /\
    (String.length pre' = String.length pre ->
     (String.length g' <= String.length g)%nat).

(** ** The normalized record, as the specification words it *)

(** The record of an executor for a result state and a formatted text:
    [name], [label], [service] and [component] from the alert metadata
    ([None] for a missing key), and the stored cluster tag. *)
Definition NormalizedRecord (self : BaseAlert) (state : pyval) (text : string)
    : gmap string pyval :=
  {[ "name" := _find_value self "name";
     "label" := _find_value self "label";
     "state" := state;
     "text" := PyStr text;
     "cluster" := cluster self;
     "service" := _find_value self "service";
     "component" := _find_value self "componentName" ]}.

(** ** The scenario of the disk check *)

Definition disk_meta : gmap string pyval :=
  {[ "name" := PyStr "disk_check";
     "label" := PyStr "Disk Usage";
     "service" := PyStr "HDFS";
     "componentName" := PyStr "DATANODE";
     "interval" := PyInt 5 ]}.

Definition disk_source_meta : gmap string pyval :=
  {[ "reporting" := PyDict
       {[ "ok" := PyDict {[ "text" := PyStr "Disk OK: {0}% used" ]};
          "critical" := PyDict {[ "text" := PyStr "Disk CRITICAL: {0}% used" ]} ]} ]}.

(** A disk check attached to an empty sink and an empty value table. *)
Definition disk_alert : BaseAlert :=
  set_helpers [] ∅ (__init__ disk_meta disk_source_meta).

(** ** The life of an executor *)

(** A lookup key as the pattern yields it: not empty, no white space. *)
Definition valid_key (g : string) : Prop := g <> EmptyString /\ no_space g = true.

(** One call of a method that can assign to an attribute of the executor.
    [interval], [_find_value], [get_lookup_keys] and
    [_lookup_property_value] only read it. *)
Inductive step : BaseAlert -> BaseAlert -> Prop :=
| step_set_helpers c d self : step self (set_helpers c d self)
| step_set_cluster cl host self : step self (set_cluster cl host self)
| step_find_lookup_property key self :
    step self (snd (_find_lookup_property key self))
| step_collect wording (h : hook) self :
    step self (snd (collect wording h self)).

(** The executors a program can hold: built by [__init__], then used
    through the methods. *)
Inductive reachable : BaseAlert -> Prop :=
| reachable_init meta source_meta : reachable (__init__ meta source_meta)
| reachable_step self self' : reachable self -> step self self' -> reachable self'.

(** [n] calls of [_find_lookup_property] with the same key. *)
Definition find_lookup_property_times (n : nat) (key : string) (self : BaseAlert)
    : BaseAlert :=
  Nat.iter n (fun s => snd (_find_lookup_property key s)) self.

(** A template with no brace in it. *)
Fixpoint brace_free (s : string) : bool :=
  match s with
  | EmptyString => true
  | String c s' => negb (Ascii.eqb c "{") && negb (Ascii.eqb c "}") && brace_free s'
  end.

(** * Properties *)

(** ** Worked examples *)

Example format_disk wording :
  str_format wording "Disk CRITICAL: {0}% used" [PyStr "92"]
  = Returns "Disk CRITICAL: 92% used".
Proof. reflexivity. Qed.

Example format_escapes wording :
  str_format wording "{{{1}}} {0}" [PyInt (-7); PyNone] = Returns "{None} -7".
Proof. reflexivity. Qed.

Example format_missing wording :
  str_format wording "a {1}" [PyStr "x"]
  = Raises (mkExn IndexError (wording FormatIndexOutOfRange)).
Proof. reflexivity. Qed.

Example findall_one : findall "http://{{hdfs-site/dfs.http.address}}/jmx"
                      = ["hdfs-site/dfs.http.address"].
Proof. reflexivity. Qed.

Example findall_two : findall "{{a}} and {{b.c}}" = ["a"; "b.c"].
Proof. reflexivity. Qed.

Example findall_greedy : findall "{{a}}{{b}}" = ["a}}{{b"].
Proof. reflexivity. Qed.

Example findall_none : findall "{{}} {{ x }} {a}" = [].
Proof. reflexivity. Qed.

Example wording_key : cpython27 (NoSuchKey (PyStr "warning")) = "'warning'".
Proof. reflexivity. Qed.

(** ** Byte strings *)

Lemma append_cons c s t : String c s +:+ t = String c (s +:+ t).
Proof. reflexivity. Qed.

Lemma append_empty_r s : s +:+ "" = s.
Proof. induction s as [|c s IH]; [done|]. by rewrite append_cons, IH. Qed.

Lemma append_length s t :
  String.length (s +:+ t) = (String.length s + String.length t)%nat.
Proof. induction s as [|c s IH]; [done|]. rewrite append_cons. simpl. by rewrite IH. Qed.

Lemma length_zero_empty s : String.length s = 0%nat -> s = "".
Proof. by destruct s. Qed.

Lemma strip_Some p s r : strip p s = Some r <-> s = p +:+ r.
Proof.
  revert s. induction p as [|a p IH]; intros s; simpl.
  - split; [by intros [= ->] | by intros ->].
  - destruct s as [|b s]; [done|]. rewrite append_cons.
    destruct (Ascii.eqb_spec a b) as [->|Hab].
    + rewrite IH. split; [by intros -> | by intros [= ->]].
    + split; [done | intros [= ? ?]; congruence].
Qed.

(** ** The matcher finds the leftmost token and takes it greedily *)

Lemma match_body_sound s g rest :
  match_body s = Some (g, rest) ->
  s = g +:+ "}}" +:+ rest /\ g <> "" /\ no_space g = true.
Proof.
  revert g rest. induction s as [|c s IH]; intros g rest; cbn [match_body]; [done|].
  destruct (is_space c) eqn:Hc; [done|].
  destruct (match_body s) as [[g1 r1]|] eqn:Hm.
  - intros [= <- <-]. destruct (IH _ _ eq_refl) as (Hs & _ & Hns).
    rewrite append_cons, <- Hs. simpl. by rewrite Hc, Hns.
  - destruct (strip "}}" s) as [r|] eqn:Hs; [|done].
    intros [= <- <-]. apply strip_Some in Hs as ->. simpl. by rewrite Hc.
Qed.

Lemma match_body_longest g rest :
  g <> "" -> no_space g = true ->
  exists g' rest',
    match_body (g +:+ "}}" +:+ rest) = Some (g', rest') /\
    (String.length g <= String.length g')%nat.
Proof.
  induction g as [|c g IH]; [done|]. intros _ Hns. simpl in Hns.
  apply andb_true_iff in Hns as [Hc%negb_true_iff Hns].
  rewrite append_cons. cbn [match_body]. rewrite Hc.
  destruct g as [|c' g].
  - change ("" +:+ "}}" +:+ rest) with ("}}" +:+ rest).
    destruct (match_body ("}}" +:+ rest)) as [[g1 r1]|].
    + eexists _, _. split; [done|]. simpl. lia.
    + assert (strip "}}" ("}}" +:+ rest) = Some rest) as -> by by apply strip_Some.
      eexists _, _. split; [done|]. simpl. lia.
  - destruct (IH ltac:(done) Hns) as (g1 & r1 & -> & Hlen).
    eexists _, _. split; [done|]. simpl in *. lia.
Qed.

Lemma match_at_sound s g rest :
  match_at s = Some (g, rest) -> token s "" g rest.
Proof.
  unfold match_at, token.
  destruct (strip "{{" s) as [body|] eqn:Hs; [|done].
  apply strip_Some in Hs as ->. intros (-> & ? & ?)%match_body_sound. done.
Qed.

Lemma match_at_longest s g post :
  token s "" g post ->
  exists g' rest,
    match_at s = Some (g', rest) /\ (String.length g <= String.length g')%nat.
Proof.
  intros (-> & Hg & Hns). unfold match_at.
  assert (strip "{{" ("" +:+ "{{" +:+ g +:+ "}}" +:+ post)
          = Some (g +:+ "}}" +:+ post)) as -> by by apply strip_Some.
  by apply match_body_longest.
Qed.

Lemma match_at_shorter s g rest :
  match_at s = Some (g, rest) -> (String.length rest < String.length s)%nat.
Proof.
  intros (-> & _ & _)%match_at_sound. rewrite !append_length. simpl. lia.
Qed.

(** A token of [String c s] that does not start at its first character is
    a token of [s]. *)
Lemma token_tail c s pre g post :
  token s pre g post <-> token (String c s) (String c pre) g post.
Proof.
  unfold token. rewrite append_cons.
  split; intros (H & ? & ?); split_and!; [by rewrite H | done.. | by injection H | done | done].
Qed.

(** A token that starts after the first character of a text. *)
Lemma token_cons_inv c s c' pre g post :
  token (String c s) (String c' pre) g post -> c' = c /\ token s pre g post.
Proof.
  intros Htok. assert (c' = c) as ->.
  { destruct Htok as (H & _). rewrite append_cons in H. by injection H. }
  split; [done|]. by apply (token_tail c).
Qed.

(** The first group [findall] returns is the inner path of the first token. *)
Lemma findall_fuel_head n s g l :
  findall_fuel n s = g :: l ->
  exists pre post, token s pre g post /\ first_token s pre g.
Proof.
  revert s. induction n as [|n IH]; intros s; simpl; [done|].
  destruct s as [|c s]; [done|].
  destruct (match_at (String c s)) as [[g0 rest]|] eqn:Hm.
  - intros [= -> _]. exists "", rest. split; [by apply match_at_sound|].
    intros pre' g' post' Htok. split; [simpl; lia|].
    intros ->%length_zero_empty.
    destruct (match_at_longest _ _ _ Htok) as (g1 & r1 & Hm' & Hlen).
    rewrite Hm in Hm'. by injection Hm' as -> _.
  - intros (pre & post & Htok & Hfirst)%IH.
    exists (String c pre), post. split; [by apply token_tail|].
    intros pre' g' post' Htok'. destruct pre' as [|c' pre'].
    + destruct (match_at_longest _ _ _ Htok') as (? & ? & Hm' & _). congruence.
    + apply token_cons_inv in Htok' as [-> Htok'].
      destruct (Hfirst _ _ _ Htok') as [Hle Heq].
      split; [simpl; lia|]. simpl. intros [=]. auto.
Qed.

(** With enough fuel, a text that holds a token yields a group. *)
Lemma findall_fuel_finds n s :
  (String.length s <= n)%nat -> has_token s -> findall_fuel n s <> [].
Proof.
  revert s. induction n as [|n IH]; intros s Hn (pre & g & post & Htok).
  - apply Nat.le_0_r, length_zero_empty in Hn as ->.
    destruct Htok as (H & _). by destruct pre.
  - simpl. destruct s as [|c s].
    { destruct Htok as (H & _). by destruct pre. }
    destruct (match_at (String c s)) as [[g0 rest]|] eqn:Hm; [done|].
    destruct pre as [|c' pre].
    + destruct (match_at_longest _ _ _ Htok) as (? & ? & Hm' & _). congruence.
    + apply token_cons_inv in Htok as [-> Htok].
      apply IH; [simpl in Hn; lia|]. by exists pre, g, post.
Qed.

(** The fuel [findall] starts with is enough: more fuel changes nothing. *)
Lemma findall_fuel_irrelevant n m s :
  (String.length s <= n)%nat -> (String.length s <= m)%nat ->
  findall_fuel n s = findall_fuel m s.
Proof.
  revert m s. induction n as [|n IH]; intros m s Hn Hm.
  - apply Nat.le_0_r, length_zero_empty in Hn as ->. by destruct m.
  - destruct m as [|m].
    { apply Nat.le_0_r, length_zero_empty in Hm as ->. done. }
    simpl. destruct s as [|c s]; [done|]. simpl in Hn, Hm.
    destruct (match_at (String c s)) as [[g rest]|] eqn:Hma.
    + apply match_at_shorter in Hma. simpl in Hma. f_equal. apply IH; lia.
    + apply IH; lia.
Qed.

Lemma findall_fuel_enough n s :
  (String.length s <= n)%nat -> findall_fuel n s = findall s.
Proof. intros Hn. by apply findall_fuel_irrelevant. Qed.

Lemma has_token_findall key : has_token key <-> findall key <> [].
Proof.
  split.
  - by apply findall_fuel_finds.
  - destruct (findall key) as [|g l] eqn:Hf; [done|]. intros _.
    destruct (findall_fuel_head _ _ _ _ Hf) as (pre & post & Htok & _).
    by exists pre, g, post.
Qed.

(** ** The lookup keys *)

(** C6: for every key that holds no parameterization token,
    [_find_lookup_property] returns the key unchanged and leaves the
    executor, and so its list of lookup keys, as it was. *)
Theorem find_lookup_property_literal key self :
  ~ has_token key -> _find_lookup_property key self = (key, self).
Proof.
  intros Hno. unfold _find_lookup_property.
  destruct (findall key) as [|g l] eqn:Hf; [done|].
  destruct Hno. apply has_token_findall. by rewrite Hf.
Qed.

Lemma find_lookup_property_literal_witness :
  ~ has_token "ambari.server.port" /\
  _find_lookup_property "ambari.server.port" disk_alert
  = ("ambari.server.port", disk_alert).
Proof.
  assert (~ has_token "ambari.server.port") as Hno.
  { rewrite has_token_findall. intros H. by apply H. }
  split; [exact Hno | exact (find_lookup_property_literal _ _ Hno)].
Defined.

(** C3, as the code has it: for every key that holds a parameterization
    token, [_find_lookup_property] returns the inner path of the first one
    (the leftmost, taken as far as the last closing braces of its run of
    non-space characters) and appends it to the list of lookup keys, one
    entry a call; a second call with the same key appends the same entry
    again. *)
Theorem find_lookup_property_token key self :
  has_token key ->
  exists pre g post,
    token key pre g post /\ first_token key pre g /\
    _find_lookup_property key self = (g, append_lookup_key g self) /\
    _lookup_keys (append_lookup_key g self) = (_lookup_keys self ++ [g])%list /\
    _find_lookup_property key (append_lookup_key g self)
    = (g, append_lookup_key g (append_lookup_key g self)) /\
    _lookup_keys (append_lookup_key g (append_lookup_key g self))
    = (_lookup_keys self ++ [g; g])%list.
Proof.
  intros Htok%has_token_findall. unfold _find_lookup_property.
  destruct (findall key) as [|g l] eqn:Hf; [done|].
  destruct (findall_fuel_head _ _ _ _ Hf) as (pre & post & Hg & Hfirst).
  exists pre, g, post. split_and!; try done.
  simpl. by rewrite <- app_assoc.
Qed.

Lemma find_lookup_property_token_witness :
  has_token "{{hdfs-site/dfs.datanode.address}}" /\
  exists pre g post,
    token "{{hdfs-site/dfs.datanode.address}}" pre g post /\
    first_token "{{hdfs-site/dfs.datanode.address}}" pre g /\
    _find_lookup_property "{{hdfs-site/dfs.datanode.address}}" disk_alert
    = (g, append_lookup_key g disk_alert) /\
    _lookup_keys (append_lookup_key g disk_alert)
    = (_lookup_keys disk_alert ++ [g])%list /\
    _find_lookup_property "{{hdfs-site/dfs.datanode.address}}"
      (append_lookup_key g disk_alert)
    = (g, append_lookup_key g (append_lookup_key g disk_alert)) /\
    _lookup_keys (append_lookup_key g (append_lookup_key g disk_alert))
    = (_lookup_keys disk_alert ++ [g; g])%list.
Proof.
  assert (has_token "{{hdfs-site/dfs.datanode.address}}") as Htok.
  { by exists "", "hdfs-site/dfs.datanode.address", "". }
  split; [exact Htok | exact (find_lookup_property_token _ disk_alert Htok)].
Defined.

(** C3 as stated fails: the second call with the same raw key adds the
    inner path a second time. *)
Lemma find_lookup_property_twice :
  has_token "{{a}}" /\
  _find_lookup_property "{{a}}" (__init__ ∅ ∅)
  = ("a", append_lookup_key "a" (__init__ ∅ ∅)) /\
  get_lookup_keys (append_lookup_key "a" (__init__ ∅ ∅)) = ["a"] /\
  get_lookup_keys
    (snd (_find_lookup_property "{{a}}" (append_lookup_key "a" (__init__ ∅ ∅))))
  = ["a"; "a"].
Proof. split; [by exists "", "a", "" | done]. Qed.

(** C5: [_lookup_property_value] returns the key itself when the key is
    not in the list of lookup keys; when it is, the value the injected
    table has for it, and [None] when the table has none. It returns in
    every case. *)
Theorem lookup_property_value_cases wording key self table :
  config_value_dict self = Some table ->
  (key ∉ _lookup_keys self ->
   _lookup_property_value wording key self = Returns (PyStr key)) /\
  (key ∈ _lookup_keys self -> forall v, table !! key = Some v ->
   _lookup_property_value wording key self = Returns v) /\
  (key ∈ _lookup_keys self -> table !! key = None ->
   _lookup_property_value wording key self = Returns PyNone) /\
  (exists v, _lookup_property_value wording key self = Returns v).
Proof.
  intros Htable. unfold _lookup_property_value. rewrite Htable.
  case_bool_decide as Hin; simpl; split_and!; try done.
  - by intros _ v ->.
  - by intros _ ->.
  - destruct (table !! key); eauto.
  - eauto.
Qed.

Lemma lookup_property_value_cases_witness :
  let self := append_lookup_key "port"
                (set_helpers [] {[ "port" := PyInt 8020 ]} (__init__ ∅ ∅)) in
  config_value_dict self = Some {[ "port" := PyInt 8020 ]} /\
  "port" ∈ _lookup_keys self /\
  _lookup_property_value cpython27 "port" self = Returns (PyInt 8020).
Proof.
  intros self.
  assert ("port" ∈ _lookup_keys self) as Hin by by apply list_elem_of_singleton.
  split; [reflexivity|]. split; [exact Hin|].
  exact (proj1 (proj2 (lookup_property_value_cases cpython27 "port" self
                         {[ "port" := PyInt 8020 ]} eq_refl))
           Hin (PyInt 8020) eq_refl).
Defined.

(** ** The metadata accessors *)

(** C4: [interval] returns 1 when the metadata has no ['interval'], and
    [max(1, i)] when it has the integer [i] there. *)
Theorem interval_clamped self :
  (alert_meta self !! "interval" = None -> interval self = PyInt 1) /\
  (forall i : Z, alert_meta self !! "interval" = Some (PyInt i) ->
   interval self = PyInt (Z.max 1 i)).
Proof.
  unfold interval. split.
  - by intros ->.
  - intros i ->. simpl. destruct (Z.ltb_spec i 1); f_equal; lia.
Qed.

(** C9: [_find_value] returns the value the alert metadata has for the
    key, and [None] when the key is missing; it is a total function, so
    no lookup of [name], [label], [service] or [componentName] fails. *)
Theorem find_value_safe self meta_key :
  (forall v, alert_meta self !! meta_key = Some v -> _find_value self meta_key = v) /\
  (alert_meta self !! meta_key = None -> _find_value self meta_key = PyNone).
Proof. unfold _find_value. split; [by intros v -> | by intros ->]. Qed.

Lemma interval_clamped_witness :
  alert_meta (__init__ ∅ ∅) !! "interval" = None /\
  interval (__init__ ∅ ∅) = PyInt 1 /\
  alert_meta (__init__ {[ "interval" := PyInt (-3) ]} ∅) !! "interval"
  = Some (PyInt (-3)) /\
  interval (__init__ {[ "interval" := PyInt (-3) ]} ∅) = PyInt (Z.max 1 (-3)).
Proof.
  split; [reflexivity|].
  split; [exact (proj1 (interval_clamped (__init__ ∅ ∅)) eq_refl)|].
  split; [reflexivity|].
  exact (proj2 (interval_clamped (__init__ {[ "interval" := PyInt (-3) ]} ∅))
           (-3)%Z eq_refl).
Defined.

Lemma find_value_safe_witness :
  alert_meta disk_alert !! "label" = Some (PyStr "Disk Usage") /\
  _find_value disk_alert "label" = PyStr "Disk Usage" /\
  alert_meta (__init__ ∅ ∅) !! "label" = None /\
  _find_value (__init__ ∅ ∅) "label" = PyNone.
Proof.
  split; [reflexivity|].
  split; [exact (proj1 (find_value_safe disk_alert "label") _ eq_refl)|].
  split; [reflexivity|].
  exact (proj2 (find_value_safe (__init__ ∅ ∅) "label") eq_refl).
Defined.

(** ** One run of [collect] *)

Lemma format_unknown wording s :
  str_format wording "Unknown {0}" [PyStr s] = Returns ("Unknown " +:+ s).
Proof.
  unfold str_format. simpl. unfold mbind, outcome_bind.
  by rewrite append_empty_r.
Qed.

Lemma collect_try_hook_raises wording (h : hook) self e :
  h self = Raises e -> collect_try wording h self = Raises e.
Proof. unfold collect_try. by intros ->. Qed.

(** A failure in the [try] that derives from [Exception] ends in the record
    of an unknown state whose text names the failure. *)
Lemma collect_after_failure wording h self c e :
  collector self = Some c ->
  collect_try wording h self = Raises e ->
  is_Exception (exn_class_of e) = true ->
  collect wording h self
  = (Returns tt,
     put (cluster self)
       (NormalizedRecord self (PyStr RESULT_UNKNOWN) ("Unknown " +:+ exn_str e))
       c self).
Proof.
  intros Hc Htry Hexn. unfold collect, collect_guarded.
  rewrite Htry, Hexn. unfold collect_data.
  cbn [mbind outcome_bind getitem_int attr_format star_args lookup list_lookup].
  rewrite format_unknown. cbn [mbind outcome_bind]. rewrite Hc.
  reflexivity.
Qed.

(** What [collect] does once the [try] statement is behind it. *)
Lemma collect_returns_inv wording h self :
  fst (collect wording h self) = Returns tt ->
  exists c data,
    collector self = Some c /\
    collect wording h self = (Returns tt, put (cluster self) data c self).
Proof.
  unfold collect.
  destruct (collect_guarded wording h self) as [[res text]| |]; [|done..].
  cbn [mbind outcome_bind].
  destruct (collect_data wording res text self) as [data| |]; [|done..].
  cbn [mbind outcome_bind].
  destruct (collector self) as [c|]; [|done]. eauto.
Qed.

Lemma collect_not_returns wording h self :
  fst (collect wording h self) <> Returns tt ->
  snd (collect wording h self) = self.
Proof.
  unfold collect.
  destruct (collect_guarded wording h self) as [[res text]| |]; [|done..].
  cbn [mbind outcome_bind].
  destruct (collect_data wording res text self) as [data| |]; [|done..].
  cbn [mbind outcome_bind].
  destruct (collector self) as [c|]; done.
Qed.

(** C7: the disk check whose hook returns [(CRITICAL, ["92"])] puts
    exactly one record in the sink: the metadata's name, label, service and
    component, the state [CRITICAL], the text of the [critical] template
    filled with the argument, and the stored cluster tag. *)
Theorem collect_disk_critical wording (cl host : pyval) (log : sink)
    (values : gmap string pyval) :
  let self := set_cluster cl host
                (set_helpers log values (__init__ disk_meta disk_source_meta)) in
  let h : hook :=
    fun _ => Returns (PyTuple [PyStr RESULT_CRITICAL; PyList [PyStr "92"]]) in
  let data : gmap string pyval :=
    {[ "name" := PyStr "disk_check";
       "label" := PyStr "Disk Usage";
       "state" := PyStr "CRITICAL";
       "text" := PyStr "Disk CRITICAL: 92% used";
       "service" := PyStr "HDFS";
       "component" := PyStr "DATANODE";
       "cluster" := cl ]} in
  collect wording h self = (Returns tt, put cl data log self) /\
  collector (put cl data log self) = Some (log ++ [(cl, data)]).
Proof. split; reflexivity. Qed.

(** C8: when the hook raises an error whose text is [connection refused],
    [collect] puts a record whose state is [UNKNOWN] and whose text is
    [Unknown connection refused]. *)
Theorem collect_connection_refused wording (h : hook) self c cls :
  collector self = Some c ->
  is_Exception cls = true ->
  h self = Raises (mkExn cls "connection refused") ->
  exists data,
    collect wording h self = (Returns tt, put (cluster self) data c self) /\
    data !! "state" = Some (PyStr "UNKNOWN") /\
    data !! "text" = Some (PyStr "Unknown connection refused").
Proof.
  intros Hc Hcls Hh. eexists. split.
  - apply (collect_after_failure wording h self c
             (mkExn cls "connection refused") Hc); [|exact Hcls].
    by apply collect_try_hook_raises.
  - split; reflexivity.
Qed.

Lemma collect_connection_refused_witness :
  let h : hook := fun _ => Raises (mkExn Exception "connection refused") in
  collector disk_alert = Some [] /\
  exists data,
    collect cpython27 h disk_alert
    = (Returns tt, put (cluster disk_alert) data [] disk_alert) /\
    data !! "state" = Some (PyStr "UNKNOWN") /\
    data !! "text" = Some (PyStr "Unknown connection refused").
Proof.
  intros h. split; [reflexivity|].
  exact (collect_connection_refused cpython27 h disk_alert [] Exception
           eq_refl eq_refl eq_refl).
Defined.

(** C2, as the code has it: the failure of the base hook is no exception
    to the rule. Whatever the [try] raises that derives from [Exception],
    the [NotImplementedError] of [BaseAlert._collect] included, is absorbed:
    [collect] returns and puts the record of an unknown state whose text is
    [Unknown] followed by the text of the failure. *)
Theorem collect_absorbs_exceptions wording h self c :
  collector self = Some c ->
  collect wording _collect self
  = (Returns tt,
     put (cluster self) (NormalizedRecord self (PyStr "UNKNOWN") "Unknown ") c self) /\
  (forall e,
     collect_try wording h self = Raises e ->
     is_Exception (exn_class_of e) = true ->
     collect wording h self
     = (Returns tt,
        put (cluster self)
          (NormalizedRecord self (PyStr "UNKNOWN") ("Unknown " +:+ exn_str e))
          c self)).
Proof.
  intros Hc. split.
  - by apply (collect_after_failure wording _collect self c
                (mkExn NotImplementedError "")).
  - intros e Htry Hexn. by apply collect_after_failure.
Qed.

Lemma collect_absorbs_exceptions_witness :
  let h : hook := fun _ => Returns (PyTuple [PyStr "WARNING"; PyList []]) in
  collector disk_alert = Some [] /\
  collect_try cpython27 h disk_alert = Raises (mkExn KeyError "'warning'") /\
  collect cpython27 h disk_alert
  = (Returns tt,
     put (cluster disk_alert)
       (NormalizedRecord disk_alert (PyStr "UNKNOWN") "Unknown 'warning'")
       [] disk_alert).
Proof.
  intros h. split; [reflexivity|]. split; [reflexivity|].
  exact (proj2 (collect_absorbs_exceptions cpython27 h disk_alert [] eq_refl)
           (mkExn KeyError "'warning'") eq_refl eq_refl).
Defined.

(** C2 as stated fails: with the base hook, [collect] returns and puts a
    record; the [NotImplementedError] does not reach the caller. *)
Lemma collect_base_hook_returns :
  collect cpython27 _collect disk_alert
  = (Returns tt,
     put (PyStr "")
       {[ "name" := PyStr "disk_check";
          "label" := PyStr "Disk Usage";
          "state" := PyStr "UNKNOWN";
          "text" := PyStr "Unknown ";
          "cluster" := PyStr "";
          "service" := PyStr "HDFS";
          "component" := PyStr "DATANODE" ]}
       [] disk_alert).
Proof. reflexivity. Qed.

(** C1 fails on the code: the template is filled after the [try]
    statement, so a template that asks for an argument the hook did not
    return raises out of [collect], and nothing is put in the sink. *)
Theorem collect_format_failure_escapes wording :
  let h : hook := fun _ => Returns (PyTuple [PyStr RESULT_OK; PyList []]) in
  collect_try wording h disk_alert
  = Returns (PyTuple [PyStr "OK"; PyList []], PyStr "Disk OK: {0}% used") /\
  collect wording h disk_alert
  = (Raises (mkExn IndexError (wording FormatIndexOutOfRange)), disk_alert) /\
  collector (snd (collect wording h disk_alert)) = Some [].
Proof. split_and!; reflexivity. Qed.

(** C10 as stated fails: a run of [collect] need not put anything. What
    the hook raises outside [Exception] leaves [collect], and so does an
    error raised while the template is filled; in both runs the sink stays
    empty. *)
Lemma collect_run_without_put :
  let interrupted : hook := fun _ => Raises (mkExn KeyboardInterrupt "") in
  let short : hook := fun _ => Returns (PyTuple [PyStr RESULT_OK; PyList []]) in
  collect cpython27 interrupted disk_alert
  = (Raises (mkExn KeyboardInterrupt ""), disk_alert) /\
  collector (snd (collect cpython27 interrupted disk_alert)) = Some [] /\
  collect cpython27 short disk_alert
  = (Raises (mkExn IndexError "tuple index out of range"), disk_alert) /\
  collector (snd (collect cpython27 short disk_alert)) = Some [].
Proof. split_and!; reflexivity. Qed.

(** C10, as the code has it: a run of [collect] leaves the metadata, the
    source metadata, the cluster and host names, the lookup keys and the
    value table as they were. Its one effect is on the sink, which receives
    at most one [put], tagged with the cluster: exactly one when [collect]
    returns, none when an error leaves it. *)
Theorem collect_frame wording (h : hook) self :
  let after := snd (collect wording h self) in
  alert_meta after = alert_meta self /\
  alert_source_meta after = alert_source_meta self /\
  cluster after = cluster self /\
  hostname after = hostname self /\
  _lookup_keys after = _lookup_keys self /\
  config_value_dict after = config_value_dict self /\
  (collector after = collector self \/
   exists c data,
     collector self = Some c /\
     collector after = Some (c ++ [(cluster self, data)])) /\
  (fst (collect wording h self) = Returns tt ->
   exists c data,
     collector self = Some c /\
     collector after = Some (c ++ [(cluster self, data)])) /\
  (forall e, fst (collect wording h self) = Raises e -> after = self).
Proof.
  intros after. subst after.
  destruct (fst (collect wording h self)) as [[]|e|] eqn:Hfst.
  - destruct (collect_returns_inv wording h self Hfst) as (c & data & Hc & ->).
    split_and!; try done.
    + right. by exists c, data.
    + intros _. by exists c, data.
  - rewrite collect_not_returns by (by rewrite Hfst).
    split_and!; try done. by left.
  - rewrite collect_not_returns by (by rewrite Hfst).
    split_and!; try done. by left.
Qed.

Lemma collect_frame_witness :
  let h : hook := fun _ => Returns (PyTuple [PyStr RESULT_OK; PyList [PyInt 41]]) in
  fst (collect cpython27 h disk_alert) = Returns tt /\
  exists c data,
    collector disk_alert = Some c /\
    collector (snd (collect cpython27 h disk_alert))
    = Some (c ++ [(cluster disk_alert, data)]).
Proof.
  intros h. split; [reflexivity|].
  exact (proj1 (proj2 (proj2 (proj2 (proj2 (proj2 (proj2 (proj2
           (collect_frame cpython27 h disk_alert)))))))) eq_refl).
Defined.

(** * Further properties of the executor *)

(** ** What the [try] statement leaves behind *)

Lemma collect_try_inv wording h self res text :
  collect_try wording h self = Returns (res, text) ->
  exists reporting s entry,
    h self = Returns res /\
    alert_source_meta self !! "reporting" = Some reporting /\
    getitem_int wording res 0 = Returns (PyStr s) /\
    getitem_str wording reporting (lower s) = Returns entry /\
    getitem_str wording entry "text" = Returns text.
Proof.
  unfold collect_try.
  destruct (h self) as [res'| |]; [|done..]. cbn [mbind outcome_bind getitem_str].
  destruct (alert_source_meta self !! "reporting") as [reporting|]; [|done].
  cbn [mbind outcome_bind].
  destruct (getitem_int wording res' 0) as [res0| |] eqn:H0; [|done..].
  cbn [mbind outcome_bind].
  destruct res0 as [|z|s|l|l|d]; try done. cbn [call_lower mbind outcome_bind].
  destruct (getitem_str wording reporting (lower s)) as [entry| |] eqn:He; [|done..].
  cbn [mbind outcome_bind].
  destruct (getitem_str wording entry "text") as [t| |] eqn:Ht; [|done..].
  cbn [mbind outcome_bind]. intros [= -> ->]. by exists reporting, s, entry.
Qed.

(** After the [try] statement, handler included, the state is a [str]. *)
Lemma collect_guarded_state wording h self res text :
  collect_guarded wording h self = Returns (res, text) ->
  exists s, getitem_int wording res 0 = Returns (PyStr s).
Proof.
  unfold collect_guarded.
  destruct (collect_try wording h self) as [[res' text']|e|] eqn:Htry; [| |done].
  - intros [= -> ->].
    destruct (collect_try_inv _ _ _ _ _ Htry) as (_ & s & _ & _ & _ & H0 & _).
    by exists s.
  - destruct (is_Exception (exn_class_of e)); [|done].
    intros [= <- <-]. by exists RESULT_UNKNOWN.
Qed.

Lemma collect_data_inv wording res res_base_text self data :
  collect_data wording res res_base_text self = Returns data ->
  exists state tmpl argv args text,
    getitem_int wording res 0 = Returns state /\
    res_base_text = PyStr tmpl /\
    getitem_int wording res 1 = Returns argv /\
    star_args wording argv = Returns args /\
    str_format wording tmpl args = Returns text /\
    data = NormalizedRecord self state text.
Proof.
  unfold collect_data.
  destruct (getitem_int wording res 0) as [state| |] eqn:H0; [|done..].
  cbn [mbind outcome_bind].
  destruct res_base_text as [|z|tmpl|l|l|d]; try done.
  cbn [attr_format mbind outcome_bind].
  destruct (getitem_int wording res 1) as [argv| |] eqn:H1; [|done..].
  cbn [mbind outcome_bind].
  destruct (star_args wording argv) as [args| |] eqn:Ha; [|done..].
  cbn [mbind outcome_bind].
  destruct (str_format wording tmpl args) as [text| |] eqn:Hf; [|done..].
  cbn [mbind outcome_bind]. intros [= <-].
  exists state, tmpl, argv, args, text. split_and!; done.
Qed.

Lemma collect_data_formats wording res tmpl argv args self state :
  getitem_int wording res 0 = Returns state ->
  getitem_int wording res 1 = Returns argv ->
  star_args wording argv = Returns args ->
  collect_data wording res (PyStr tmpl) self
  = text ← str_format wording tmpl args;
    Returns (NormalizedRecord self state text).
Proof.
  intros H0 H1 Hargs. unfold collect_data. rewrite H0.
  cbn [attr_format mbind outcome_bind]. rewrite H1. cbn [mbind outcome_bind].
  rewrite Hargs. cbn [mbind outcome_bind].
  by destruct (str_format wording tmpl args).
Qed.

(** ** The runs of [collect], case by case *)

(** The run of [collect] once the [try] statement has chosen the template
    [tmpl] for the hook's state. *)
Lemma collect_with_template wording (h : hook) self s argv rest reporting entry
    tmpl args :
  h self = Returns (PyTuple (PyStr s :: argv :: rest)) ->
  alert_source_meta self !! "reporting" = Some (PyDict reporting) ->
  reporting !! lower s = Some (PyDict entry) ->
  entry !! "text" = Some (PyStr tmpl) ->
  star_args wording argv = Returns args ->
  collect wording h self
  = match str_format wording tmpl args with
    | Returns text =>
        match collector self with
        | Some c =>
            (Returns tt,
             put (cluster self) (NormalizedRecord self (PyStr s) text) c self)
        | None =>
            (Raises (mkExn AttributeError (wording (UnsetAttribute "collector"))),
             self)
        end
    | Raises e => (Raises e, self)
    | Beyond => (Beyond, self)
    end.
Proof.
  intros Hh Hrep Hentry Htmpl Hargs.
  unfold collect, collect_guarded, collect_try.
  rewrite Hh. cbn [mbind outcome_bind getitem_str]. rewrite Hrep.
  cbn [mbind outcome_bind getitem_int getitem_str lookup list_lookup call_lower].
  rewrite Hentry. cbn [mbind outcome_bind getitem_str]. rewrite Htmpl.
  cbn [mbind outcome_bind].
  rewrite (collect_data_formats wording _ tmpl argv args self (PyStr s))
    by done.
  destruct (str_format wording tmpl args); cbn [mbind outcome_bind]; [|done..].
  by destruct (collector self).
Qed.

(** X1: when the hook returns a state and arguments, the reporting table has
    a template under the lower-cased state and the template fills with the
    arguments, [collect] puts the record with the state as the hook spelled
    it and the filled text. What the hook returns after the arguments is
    ignored. *)
Theorem collect_reports_hook_result wording (h : hook) self c s argv rest
    reporting entry tmpl args text :
  collector self = Some c ->
  h self = Returns (PyTuple (PyStr s :: argv :: rest)) ->
  alert_source_meta self !! "reporting" = Some (PyDict reporting) ->
  reporting !! lower s = Some (PyDict entry) ->
  entry !! "text" = Some (PyStr tmpl) ->
  star_args wording argv = Returns args ->
  str_format wording tmpl args = Returns text ->
  collect wording h self
  = (Returns tt, put (cluster self) (NormalizedRecord self (PyStr s) text) c self).
Proof.
  intros Hc Hh Hrep Hentry Htmpl Hargs Hfmt.
  rewrite (collect_with_template wording h self s argv rest reporting entry
             tmpl args) by done.
  by rewrite Hfmt, Hc.
Qed.

Lemma collect_reports_hook_result_witness :
  let h : hook :=
    fun _ => Returns (PyTuple [PyStr "Ok"; PyTuple [PyInt 17; PyStr "spare"]]) in
  collect cpython27 h disk_alert
  = (Returns tt,
     put (cluster disk_alert)
       (NormalizedRecord disk_alert (PyStr "Ok") "Disk OK: 17% used")
       [] disk_alert).
Proof.
  intros h.
  exact (collect_reports_hook_result cpython27 h disk_alert []
           "Ok" (PyTuple [PyInt 17; PyStr "spare"]) []
           {[ "ok" := PyDict {[ "text" := PyStr "Disk OK: {0}% used" ]};
              "critical" := PyDict {[ "text" := PyStr "Disk CRITICAL: {0}% used" ]} ]}
           {[ "text" := PyStr "Disk OK: {0}% used" ]}
           "Disk OK: {0}% used" [PyInt 17; PyStr "spare"] "Disk OK: 17% used"
           eq_refl eq_refl eq_refl eq_refl eq_refl eq_refl eq_refl).
Defined.

(** X2: once the [try] statement has chosen a template, an error raised
    while the template is filled leaves [collect] as it is: [collect] raises
    it, the executor is unchanged and the sink receives nothing. *)
Theorem collect_format_error_propagates wording (h : hook) self res tmpl argv
    args e :
  collect_try wording h self = Returns (res, PyStr tmpl) ->
  getitem_int wording res 1 = Returns argv ->
  star_args wording argv = Returns args ->
  str_format wording tmpl args = Raises e ->
  collect wording h self = (Raises e, self).
Proof.
  intros Htry H1 Hargs Hfmt.
  destruct (collect_try_inv _ _ _ _ _ Htry) as (_ & s & _ & _ & _ & H0 & _).
  unfold collect, collect_guarded. rewrite Htry. cbn [mbind outcome_bind].
  rewrite (collect_data_formats wording res tmpl argv args self (PyStr s))
    by done.
  by rewrite Hfmt.
Qed.

Lemma collect_format_error_propagates_witness :
  let h : hook := fun _ => Returns (PyTuple [PyStr "CRITICAL"; PyList []]) in
  collect cpython27 h disk_alert
  = (Raises (mkExn IndexError "tuple index out of range"), disk_alert).
Proof.
  intros h.
  exact (collect_format_error_propagates cpython27 h disk_alert
           (PyTuple [PyStr "CRITICAL"; PyList []]) "Disk CRITICAL: {0}% used"
           (PyList []) [] (mkExn IndexError "tuple index out of range")
           eq_refl eq_refl eq_refl eq_refl).
Defined.

(** X3: a state for which the reporting table has no entry is reported as
    [UNKNOWN]; the text is [Unknown] followed by the text of the
    [KeyError], and the arguments the hook returned are dropped. *)
Theorem collect_state_without_template wording (h : hook) self c s rest reporting :
  collector self = Some c ->
  h self = Returns (PyTuple (PyStr s :: rest)) ->
  alert_source_meta self !! "reporting" = Some (PyDict reporting) ->
  reporting !! lower s = None ->
  collect wording h self
  = (Returns tt,
     put (cluster self)
       (NormalizedRecord self (PyStr "UNKNOWN")
          ("Unknown " +:+ wording (NoSuchKey (PyStr (lower s)))))
       c self).
Proof.
  intros Hc Hh Hrep Hnone.
  apply (collect_after_failure wording h self c
           (mkExn KeyError (wording (NoSuchKey (PyStr (lower s)))))); [done| |done].
  unfold collect_try. rewrite Hh. cbn [mbind outcome_bind getitem_str].
  rewrite Hrep.
  cbn [mbind outcome_bind getitem_int getitem_str lookup list_lookup call_lower].
  by rewrite Hnone.
Qed.

Lemma collect_state_without_template_witness :
  let h : hook := fun _ => Returns (PyTuple [PyStr "WARNING"; PyList [PyStr "71"]]) in
  collect cpython27 h disk_alert
  = (Returns tt,
     put (cluster disk_alert)
       (NormalizedRecord disk_alert (PyStr "UNKNOWN") "Unknown 'warning'")
       [] disk_alert).
Proof.
  intros h.
  exact (collect_state_without_template cpython27 h disk_alert [] "WARNING"
           [PyList [PyStr "71"]]
           {[ "ok" := PyDict {[ "text" := PyStr "Disk OK: {0}% used" ]};
              "critical" := PyDict {[ "text" := PyStr "Disk CRITICAL: {0}% used" ]} ]}
           eq_refl eq_refl eq_refl eq_refl).
Defined.

(** X4: what the hook raises outside [Exception] ([KeyboardInterrupt],
    [SystemExit]) is not absorbed: [collect] raises it, the executor is
    unchanged and the sink receives nothing. *)
Theorem collect_lets_base_exceptions_through wording (h : hook) self e :
  h self = Raises e ->
  is_Exception (exn_class_of e) = false ->
  collect wording h self = (Raises e, self).
Proof.
  intros Hh Hexn. unfold collect, collect_guarded.
  rewrite (collect_try_hook_raises wording h self e Hh). by rewrite Hexn.
Qed.

Lemma collect_lets_base_exceptions_through_witness :
  let h : hook := fun _ => Raises (mkExn KeyboardInterrupt "") in
  collect cpython27 h disk_alert = (Raises (mkExn KeyboardInterrupt ""), disk_alert).
Proof.
  intros h.
  exact (collect_lets_base_exceptions_through cpython27 h disk_alert
           (mkExn KeyboardInterrupt "") eq_refl eq_refl).
Defined.

(** X5: on an executor that [set_helpers] never saw, [collect] never
    returns and changes nothing; when the [try] statement ends in the
    fallback, the call raises the [AttributeError] of the missing
    [collector]. *)
Theorem collect_without_helpers wording (h : hook) self :
  collector self = None ->
  fst (collect wording h self) <> Returns tt /\
  snd (collect wording h self) = self /\
  (forall e,
     collect_try wording h self = Raises e ->
     is_Exception (exn_class_of e) = true ->
     fst (collect wording h self)
     = Raises (mkExn AttributeError (wording (UnsetAttribute "collector")))).
Proof.
  intros Hnone.
  assert (fst (collect wording h self) <> Returns tt) as Hne.
  { intros Hret. destruct (collect_returns_inv _ _ _ Hret) as (c & _ & Hc & _).
    congruence. }
  split; [done|]. split; [by apply collect_not_returns|].
  intros e Htry Hexn. unfold collect, collect_guarded. rewrite Htry, Hexn.
  unfold collect_data.
  cbn [mbind outcome_bind getitem_int attr_format star_args lookup list_lookup].
  rewrite format_unknown. cbn [mbind outcome_bind]. by rewrite Hnone.
Qed.

Lemma collect_without_helpers_witness :
  collector (__init__ disk_meta disk_source_meta) = None /\
  fst (collect cpython27 _collect (__init__ disk_meta disk_source_meta))
  <> Returns tt /\
  snd (collect cpython27 _collect (__init__ disk_meta disk_source_meta))
  = __init__ disk_meta disk_source_meta /\
  (forall e,
     collect_try cpython27 _collect (__init__ disk_meta disk_source_meta)
     = Raises e ->
     is_Exception (exn_class_of e) = true ->
     fst (collect cpython27 _collect (__init__ disk_meta disk_source_meta))
     = Raises (mkExn AttributeError (cpython27 (UnsetAttribute "collector")))).
Proof.
  split; [reflexivity|].
  exact (collect_without_helpers cpython27 _collect
           (__init__ disk_meta disk_source_meta) eq_refl).
Defined.

(** X6: whenever [collect] returns, the one record it has put is made of
    the seven fields [name], [label], [state], [text], [cluster], [service]
    and [component] and no other; the state and the text are strings, the
    cluster field is the tag of the [put], and the four metadata fields are
    what [_find_value] gives. *)
Theorem collect_record_shape wording (h : hook) self :
  fst (collect wording h self) = Returns tt ->
  exists c state text data,
    collector self = Some c /\
    collector (snd (collect wording h self)) = Some (c ++ [(cluster self, data)]) /\
    data = NormalizedRecord self (PyStr state) text /\
    dom data = list_to_set
                 ["name"; "label"; "state"; "text"; "cluster"; "service"; "component"].
Proof.
  intros Hret. unfold collect in *.
  destruct (collect_guarded wording h self) as [[res tmpl]| |] eqn:Hg; [|done..].
  cbn [mbind outcome_bind] in *.
  destruct (collect_data wording res tmpl self) as [data| |] eqn:Hd; [|done..].
  cbn [mbind outcome_bind] in *.
  destruct (collector self) as [c|] eqn:Hc; [|done].
  destruct (collect_guarded_state _ _ _ _ _ Hg) as (s & H0).
  destruct (collect_data_inv _ _ _ _ _ Hd)
    as (state & _ & _ & _ & text & H0' & _ & _ & _ & _ & ->).
  assert (state = PyStr s) as -> by congruence.
  exists c, s, text, (NormalizedRecord self (PyStr s) text).
  split_and!; done.
Qed.

Lemma collect_record_shape_witness :
  let h : hook := fun _ => Returns (PyTuple [PyStr "ok"; PyStr "9"]) in
  fst (collect cpython27 h disk_alert) = Returns tt /\
  exists c state text data,
    collector disk_alert = Some c /\
    collector (snd (collect cpython27 h disk_alert))
    = Some (c ++ [(cluster disk_alert, data)]) /\
    data = NormalizedRecord disk_alert (PyStr state) text /\
    dom data = list_to_set
                 ["name"; "label"; "state"; "text"; "cluster"; "service"; "component"].
Proof.
  intros h. split; [reflexivity|].
  exact (collect_record_shape cpython27 h disk_alert eq_refl).
Defined.



Lemma format_from_brace_free wording args s :
  brace_free s = true -> format_from wording args None s = Returns s.
Proof.
  induction s as [|c s IH]; [done|]. cbn [brace_free format_from].
  intros [[Hopen%negb_true_iff Hclose%negb_true_iff]%andb_true_iff Hs]%andb_true_iff.
  rewrite Hopen, Hclose, (IH Hs). done.
Qed.

(** X8: a template with no brace in it is reported as it stands, whatever
    arguments the hook returns with the state. *)
Theorem collect_plain_template wording (h : hook) self c s argv rest reporting
    entry tmpl args :
  collector self = Some c ->
  h self = Returns (PyTuple (PyStr s :: argv :: rest)) ->
  alert_source_meta self !! "reporting" = Some (PyDict reporting) ->
  reporting !! lower s = Some (PyDict entry) ->
  entry !! "text" = Some (PyStr tmpl) ->
  brace_free tmpl = true ->
  star_args wording argv = Returns args ->
  collect wording h self
  = (Returns tt, put (cluster self) (NormalizedRecord self (PyStr s) tmpl) c self).
Proof.
  intros Hc Hh Hrep Hentry Htmpl Hfree Hargs.
  rewrite (collect_with_template wording h self s argv rest reporting entry
             tmpl args) by done.
  unfold str_format. by rewrite format_from_brace_free, Hc.
Qed.

Lemma collect_plain_template_witness :
  let self := set_helpers [] ∅
                (__init__ ∅ {[ "reporting" :=
                    PyDict {[ "ok" := PyDict {[ "text" := PyStr "All good" ]} ]} ]}) in
  let h : hook := fun _ => Returns (PyTuple [PyStr "OK"; PyStr "xyz"]) in
  collect cpython27 h self
  = (Returns tt,
     put (cluster self) (NormalizedRecord self (PyStr "OK") "All good") [] self).
Proof.
  intros self h.
  exact (collect_plain_template cpython27 h self [] "OK" (PyStr "xyz") []
           {[ "ok" := PyDict {[ "text" := PyStr "All good" ]} ]}
           {[ "text" := PyStr "All good" ]} "All good"
           [PyStr "x"; PyStr "y"; PyStr "z"]
           eq_refl eq_refl eq_refl eq_refl eq_refl eq_refl eq_refl).
Defined.

(** ** The interval *)


(** ** Lookup keys over the life of an executor *)

Lemma token_length key pre g post :
  token key pre g post ->
  String.length key
  = (String.length pre + String.length g + String.length post + 4)%nat /\
  (1 <= String.length g)%nat.
Proof.
  intros (-> & Hg & _). rewrite !append_length. simpl.
  destruct g; [done|]. simpl. lia.
Qed.

Lemma append_same_length s1 s2 t1 t2 :
  s1 +:+ t1 = s2 +:+ t2 -> String.length s1 = String.length s2 ->
  s1 = s2 /\ t1 = t2.
Proof.
  revert s2. induction s1 as [|c s1 IH]; intros [|c' s2]; try done.
  rewrite !append_cons. intros [= -> H] [= Hlen].
  by destruct (IH _ H Hlen) as [-> ->].
Qed.

(** The first group of [findall], when there is one, and what it says of
    the text. *)
Lemma findall_head key g l :
  findall key = g :: l ->
  exists pre post, token key pre g post /\ first_token key pre g.
Proof. apply findall_fuel_head. Qed.

(** X10: a key of fewer than five characters, the empty key included, is
    never taken for a parameterized one: it is returned as it is and
    nothing is registered. *)
Theorem find_lookup_property_short key self :
  (String.length key < 5)%nat -> _find_lookup_property key self = (key, self).
Proof.
  intros Hlen. unfold _find_lookup_property.
  destruct (findall key) as [|g l] eqn:Hf; [done|].
  destruct (findall_head _ _ _ Hf) as (pre & post & Htok & _).
  apply token_length in Htok. lia.
Qed.

Lemma find_lookup_property_short_witness :
  (String.length "{{}}" < 5)%nat /\
  _find_lookup_property "{{}}" disk_alert = ("{{}}", disk_alert).
Proof.
  assert (String.length "{{}}" < 5)%nat as Hlen by (simpl; lia).
  split; [exact Hlen | exact (find_lookup_property_short "{{}}" disk_alert Hlen)].
Defined.

(** X11: a path that is not empty and has no white space in it, written
    between double braces, is read back as it was written, and registered. *)
Theorem find_lookup_property_wrapped g self :
  valid_key g ->
  _find_lookup_property ("{{" +:+ g +:+ "}}") self = (g, append_lookup_key g self).
Proof.
  intros [Hg Hns]. unfold _find_lookup_property.
  assert (token ("{{" +:+ g +:+ "}}") "" g "") as Htok by done.
  destruct (findall ("{{" +:+ g +:+ "}}")) as [|g' l] eqn:Hf.
  { exfalso. eapply has_token_findall; [by exists "", g, ""|done]. }
  destruct (findall_head _ _ _ Hf) as (pre & post & Htok' & Hfirst).
  destruct (Hfirst _ _ _ Htok) as [Hpre Hlen].
  apply Nat.le_0_r, length_zero_empty in Hpre as ->.
  specialize (Hlen eq_refl).
  destruct (token_length _ _ _ _ Htok) as [Hl _].
  destruct (token_length _ _ _ _ Htok') as [Hl' _]. simpl in Hl, Hl'.
  destruct Htok' as (Heq & _ & _).
  change ("" +:+ "{{" +:+ g' +:+ "}}" +:+ post)
    with ("{{" +:+ g' +:+ "}}" +:+ post) in Heq.
  apply (inj (String.append "{{")) in Heq.
  apply append_same_length in Heq as [-> _]; [done|lia].
Qed.

Lemma find_lookup_property_wrapped_witness :
  valid_key "core-site/fs.defaultFS" /\
  _find_lookup_property ("{{" +:+ "core-site/fs.defaultFS" +:+ "}}") disk_alert
  = ("core-site/fs.defaultFS", append_lookup_key "core-site/fs.defaultFS" disk_alert).
Proof.
  assert (valid_key "core-site/fs.defaultFS") as Hvalid by done.
  split; [exact Hvalid|].
  exact (find_lookup_property_wrapped "core-site/fs.defaultFS" disk_alert Hvalid).
Defined.

(** X12: resolving a key and then looking up what came back. For a key
    with a token the value is the table's value for the inner path, [None]
    when the table has none; for a key without one that no earlier call
    registered, it is the key itself. *)
Theorem find_then_lookup wording key self table :
  config_value_dict self = Some table ->
  let resolved := fst (_find_lookup_property key self) in
  let self' := snd (_find_lookup_property key self) in
  (has_token key ->
   _lookup_property_value wording resolved self'
   = Returns (default PyNone (table !! resolved))) /\
  (~ has_token key -> key ∉ _lookup_keys self ->
   _lookup_property_value wording resolved self' = Returns (PyStr key)).
Proof.
  intros Htable resolved self'. subst resolved self'.
  unfold _find_lookup_property. split.
  - intros Htok%has_token_findall.
    destruct (findall key) as [|g l]; [done|]. cbn [fst snd].
    unfold _lookup_property_value. cbn [append_lookup_key _lookup_keys config_value_dict].
    rewrite bool_decide_eq_true_2 by (apply elem_of_app; right; by apply list_elem_of_singleton).
    rewrite Htable. cbn [negb]. by destruct (table !! g).
  - intros Hno Hnotin.
    destruct (findall key) as [|g l] eqn:Hf.
    + cbn [fst snd]. unfold _lookup_property_value.
      by rewrite bool_decide_eq_false_2.
    + destruct Hno. apply has_token_findall. by rewrite Hf.
Qed.

Lemma find_then_lookup_witness :
  let self := set_helpers [] {[ "hdfs-site/port" := PyInt 50070 ]} (__init__ ∅ ∅) in
  config_value_dict self = Some {[ "hdfs-site/port" := PyInt 50070 ]} /\
  has_token "http://host:{{hdfs-site/port}}" /\
  _lookup_property_value cpython27
    (fst (_find_lookup_property "http://host:{{hdfs-site/port}}" self))
    (snd (_find_lookup_property "http://host:{{hdfs-site/port}}" self))
  = Returns (PyInt 50070).
Proof.
  intros self.
  assert (has_token "http://host:{{hdfs-site/port}}") as Htok.
  { by exists "http://host:", "hdfs-site/port", "". }
  split; [reflexivity|]. split; [exact Htok|].
  exact (proj1 (find_then_lookup cpython27 "http://host:{{hdfs-site/port}}" self
                  {[ "hdfs-site/port" := PyInt 50070 ]} eq_refl) Htok).
Defined.

(** X13: the list of lookup keys is never pruned: [n] calls with the same
    parameterized key leave [n] more entries, each of them the inner path
    of the key's first token, which is also what every call returns. *)
Theorem find_lookup_property_accumulates key self :
  has_token key ->
  exists pre g post,
    token key pre g post /\ first_token key pre g /\
    forall n,
      fst (_find_lookup_property key (find_lookup_property_times n key self)) = g /\
      _lookup_keys (find_lookup_property_times n key self)
      = (_lookup_keys self ++ replicate n g)%list.
Proof.
  intros Htok%has_token_findall.
  destruct (findall key) as [|g l] eqn:Hf; [done|].
  destruct (findall_head _ _ _ Hf) as (pre & post & Hg & Hfirst).
  exists pre, g, post. split; [done|]. split; [done|].
  intros n. split.
  { unfold _find_lookup_property. by rewrite Hf. }
  induction n as [|n IH].
  - cbn. by rewrite app_nil_r.
  - change (find_lookup_property_times (S n) key self)
      with (snd (_find_lookup_property key (find_lookup_property_times n key self))).
    unfold _find_lookup_property. rewrite Hf.
    cbn [snd append_lookup_key _lookup_keys]. rewrite IH, <- app_assoc.
    by rewrite replicate_S_end.
Qed.

Lemma find_lookup_property_accumulates_witness :
  has_token "{{a/b}}" /\
  exists pre g post,
    token "{{a/b}}" pre g post /\ first_token "{{a/b}}" pre g /\
    forall n,
      fst (_find_lookup_property "{{a/b}}"
             (find_lookup_property_times n "{{a/b}}" disk_alert)) = g /\
      _lookup_keys (find_lookup_property_times n "{{a/b}}" disk_alert)
      = (_lookup_keys disk_alert ++ replicate n g)%list.
Proof.
  assert (has_token "{{a/b}}") as Htok by by exists "", "a/b", "".
  split; [exact Htok|].
  exact (find_lookup_property_accumulates "{{a/b}}" disk_alert Htok).
Defined.

Lemma collect_after wording (h : hook) self :
  snd (collect wording h self) = self \/
  exists c data,
    collector self = Some c /\
    snd (collect wording h self) = put (cluster self) data c self.
Proof.
  destruct (fst (collect wording h self)) as [[]|e|] eqn:Hfst.
  - right. destruct (collect_returns_inv _ _ _ Hfst) as (c & data & Hc & ->).
    by exists c, data.
  - left. apply collect_not_returns. by rewrite Hfst.
  - left. apply collect_not_returns. by rewrite Hfst.
Qed.

Lemma find_lookup_property_after key self :
  snd (_find_lookup_property key self) = self \/
  exists g, valid_key g /\
            snd (_find_lookup_property key self) = append_lookup_key g self.
Proof.
  unfold _find_lookup_property.
  destruct (findall key) as [|g l] eqn:Hf; [by left|]. right. exists g.
  destruct (findall_head _ _ _ Hf) as (pre & post & (_ & Hg & Hns) & _).
  done.
Qed.

(** X14: whatever methods were called on an executor since [__init__],
    every lookup key it holds is a path that is not empty and has no white
    space in it, and it has a sink exactly when it has a value table. *)
Theorem reachable_invariant self :
  reachable self ->
  Forall valid_key (_lookup_keys self) /\
  (is_Some (collector self) <-> is_Some (config_value_dict self)).
Proof.
  induction 1 as [meta source_meta | self self' _ [IHkeys IHhelpers] Hstep].
  - split; [by apply Forall_nil|]. cbn. by rewrite <- !not_eq_None_Some.
  - destruct Hstep as [c d self|cl host self|key self|wording h self].
    + split; [done|]. cbn. split; eauto.
    + done.
    + destruct (find_lookup_property_after key self) as [->|(g & Hg & ->)]; [done|].
      split; [|done]. cbn. apply Forall_app. split; [done|]. by apply Forall_singleton.
    + destruct (collect_after wording h self) as [->|(c & data & Hc & ->)]; [done|].
      split; [done|]. cbn. rewrite <- IHhelpers, Hc. split; eauto.
Qed.

Lemma reachable_invariant_witness :
  let self := snd (_find_lookup_property "{{hdfs-site/port}}/jmx"
                     (snd (collect cpython27 _collect disk_alert))) in
  reachable self /\
  Forall valid_key (_lookup_keys self) /\
  (is_Some (collector self) <-> is_Some (config_value_dict self)).
Proof.
  intros self.
  assert (reachable self) as Hreach.
  { eapply reachable_step; [|apply step_find_lookup_property].
    eapply reachable_step; [|apply step_collect].
    eapply reachable_step; [|apply step_set_helpers].
    apply reachable_init. }
  split; [exact Hreach | exact (reachable_invariant self Hreach)].
Defined.

(** X15: no sequence of method calls changes the metadata an executor was
    built with, so its interval and the four metadata fields of its records
    stay what they were; and the lookup keys it held stay at the front of
    the list, in their order. *)
Theorem methods_keep_metadata self self' :
  rtc step self self' ->
  alert_meta self' = alert_meta self /\
  alert_source_meta self' = alert_source_meta self /\
  interval self' = interval self /\
  (forall k, _find_value self' k = _find_value self k) /\
  _lookup_keys self `prefix_of` _lookup_keys self'.
Proof.
  assert (forall s s', step s s' ->
            alert_meta s' = alert_meta s /\
            alert_source_meta s' = alert_source_meta s /\
            _lookup_keys s `prefix_of` _lookup_keys s') as Hstep.
  { intros s s' [c d s0|cl host s0|key s0|wording h s0]; try done.
    - destruct (find_lookup_property_after key s0) as [->|(g & _ & ->)]; [done|].
      split_and!; [done..|]. by exists [g].
    - by destruct (collect_after wording h s0) as [->|(c & data & _ & ->)]. }
  assert (rtc step self self' ->
            alert_meta self' = alert_meta self /\
            alert_source_meta self' = alert_source_meta self /\
            _lookup_keys self `prefix_of` _lookup_keys self') as Hrtc.
  { induction 1 as [s|s1 s2 s3 H12 _ (IHm & IHs & IHk)]; [done|].
    destruct (Hstep _ _ H12) as (Hm & Hs & Hk).
    split_and!; [congruence..|]. by etrans. }
  intros (Hm & Hs & Hk)%Hrtc. split_and!; try done.
  - unfold interval. by rewrite Hm.
  - intros k. unfold _find_value. by rewrite Hm.
Qed.

Lemma methods_keep_metadata_witness :
  let self' := snd (_find_lookup_property "{{a}}"
                      (set_cluster (PyStr "c1") (PyStr "h1") disk_alert)) in
  rtc step disk_alert self' /\
  alert_meta self' = alert_meta disk_alert /\
  alert_source_meta self' = alert_source_meta disk_alert /\
  interval self' = interval disk_alert /\
  (forall k, _find_value self' k = _find_value disk_alert k) /\
  _lookup_keys disk_alert `prefix_of` _lookup_keys self'.
Proof.
  intros self'.
  assert (rtc step disk_alert self') as Hsteps.
  { eapply rtc_l; [apply step_set_cluster|].
    eapply rtc_l; [apply step_find_lookup_property|]. apply rtc_refl. }
  split; [exact Hsteps | exact (methods_keep_metadata disk_alert self' Hsteps)].
Defined.

(** ** What can leave [collect] *)

Lemma getitem_int_raises wording v i e :
  getitem_int wording v i = Raises e -> is_Exception (exn_class_of e) = true.
Proof.
  destruct v as [| |s|l|l|d]; cbn [getitem_int].
  - by intros [= <-].
  - by intros [= <-].
  - destruct (String.get i s); [done|]. by intros [= <-].
  - destruct (l !! i); [done|]. by intros [= <-].
  - destruct (l !! i); [done|]. by intros [= <-].
  - by intros [= <-].
Qed.

Lemma getitem_int_decided wording v i : getitem_int wording v i <> Beyond.
Proof.
  destruct v as [| |s|l|l|d]; cbn [getitem_int]; try done.
  - by destruct (String.get i s).
  - by destruct (l !! i).
  - by destruct (l !! i).
Qed.

Lemma getitem_str_raises wording v k e :
  getitem_str wording v k = Raises e -> is_Exception (exn_class_of e) = true.
Proof.
  destruct v as [| | | | |d]; cbn [getitem_str];
    try (by intros [= <-]).
  destruct (d !! k); [done|]. by intros [= <-].
Qed.

Lemma call_lower_raises wording v e :
  call_lower wording v = Raises e -> is_Exception (exn_class_of e) = true.
Proof.
  destruct v; cbn [call_lower]; try done;
    by intros [= <-].
Qed.

(** What the [try] raises is what the hook raised or an error of the
    interpreter, which derives from [Exception]. *)
Lemma collect_try_raises wording (h : hook) self e :
  collect_try wording h self = Raises e ->
  h self = Raises e \/ is_Exception (exn_class_of e) = true.
Proof.
  unfold collect_try.
  destruct (h self) as [res|e'|]; [|intros [= ->]; by left|done].
  intros Htry. right. revert Htry. cbn [mbind outcome_bind].
  destruct (getitem_str wording (PyDict (alert_source_meta self)) "reporting")
    as [reporting|e1|] eqn:Hr; [|intros [= <-]; by eapply getitem_str_raises|done].
  cbn [mbind outcome_bind].
  destruct (getitem_int wording res 0)
    as [res0|e1|] eqn:H0; [|intros [= <-]; by eapply getitem_int_raises|done].
  cbn [mbind outcome_bind].
  destruct (call_lower wording res0)
    as [state|e1|] eqn:Hl; [|intros [= <-]; by eapply call_lower_raises|done].
  cbn [mbind outcome_bind].
  destruct (getitem_str wording reporting state)
    as [entry|e1|] eqn:He; [|intros [= <-]; by eapply getitem_str_raises|done].
  cbn [mbind outcome_bind].
  destruct (getitem_str wording entry "text")
    as [t|e1|] eqn:Ht; [done|intros [= <-]; by eapply getitem_str_raises|done].
Qed.

(** X17: a hook result with no string in its first place (an object that
    cannot be indexed, an empty sequence, a state that is a number) is
    absorbed by the [try] statement: [collect] returns and reports
    [UNKNOWN]. *)
Theorem collect_absorbs_malformed_result wording (h : hook) self c res :
  collector self = Some c ->
  h self = Returns res ->
  (forall s, getitem_int wording res 0 <> Returns (PyStr s)) ->
  exists text,
    collect wording h self
    = (Returns tt,
       put (cluster self) (NormalizedRecord self (PyStr "UNKNOWN") text) c self).
Proof.
  intros Hc Hh Hstate.
  destruct (collect_try wording h self) as [[res' t]|e|] eqn:Htry.
  - destruct (collect_try_inv _ _ _ _ _ Htry) as (_ & s & _ & Hh' & _ & H0 & _).
    rewrite Hh in Hh'. injection Hh' as <-. by destruct (Hstate s).
  - destruct (collect_try_raises _ _ _ _ Htry) as [?|Hexn]; [congruence|].
    eexists. by apply (collect_after_failure wording h self c e).
  - exfalso. revert Htry. unfold collect_try. rewrite Hh.
    cbn [mbind outcome_bind getitem_str].
    destruct (alert_source_meta self !! "reporting") as [reporting|]; [|done].
    cbn [mbind outcome_bind].
    destruct (getitem_int wording res 0) as [[| |s| | |]| |] eqn:H0; try done.
    + by destruct (Hstate s).
    + by destruct (getitem_int_decided wording res 0).
Qed.

Lemma collect_absorbs_malformed_result_witness :
  let h : hook := fun _ => Returns PyNone in
  collector disk_alert = Some [] /\
  exists text,
    collect cpython27 h disk_alert
    = (Returns tt,
       put (cluster disk_alert)
         (NormalizedRecord disk_alert (PyStr "UNKNOWN") text) [] disk_alert).
Proof.
  intros h. split; [reflexivity|].
  refine (collect_absorbs_malformed_result cpython27 h disk_alert [] PyNone
            eq_refl eq_refl _).
  intros s. discriminate.
Defined.

(** X18: the host name kept by [set_cluster] is in no record: for a hook
    that does not look at it, [collect] does the same and the sink receives
    the same, whatever the host name is. *)
Theorem collect_ignores_hostname wording (h : hook) self cl host1 host2 :
  h (set_cluster cl host1 self) = h (set_cluster cl host2 self) ->
  fst (collect wording h (set_cluster cl host1 self))
  = fst (collect wording h (set_cluster cl host2 self)) /\
  collector (snd (collect wording h (set_cluster cl host1 self)))
  = collector (snd (collect wording h (set_cluster cl host2 self))).
Proof.
  intros Hh.
  assert (collect_guarded wording h (set_cluster cl host1 self)
          = collect_guarded wording h (set_cluster cl host2 self)) as Hg.
  { unfold collect_guarded, collect_try. by rewrite Hh. }
  unfold collect. rewrite Hg.
  destruct (collect_guarded wording h (set_cluster cl host2 self))
    as [[res text]| |]; [|done..].
  cbn [mbind outcome_bind].
  change (collect_data wording res text (set_cluster cl host1 self))
    with (collect_data wording res text (set_cluster cl host2 self)).
  destruct (collect_data wording res text (set_cluster cl host2 self));
    [|done..].
  cbn. by destruct (collector self).
Qed.

Lemma collect_ignores_hostname_witness :
  let h : hook := fun _ => Returns (PyTuple [PyStr "OK"; PyList [PyStr "12"]]) in
  fst (collect cpython27 h (set_cluster (PyStr "c1") (PyStr "host-a") disk_alert))
  = fst (collect cpython27 h (set_cluster (PyStr "c1") (PyStr "host-b") disk_alert)) /\
  collector
    (snd (collect cpython27 h (set_cluster (PyStr "c1") (PyStr "host-a") disk_alert)))
  = collector
      (snd (collect cpython27 h (set_cluster (PyStr "c1") (PyStr "host-b") disk_alert))).
Proof.
  intros h.
  exact (collect_ignores_hostname cpython27 h disk_alert (PyStr "c1")
           (PyStr "host-a") (PyStr "host-b") eq_refl).
Defined.
